(** * Fleet Monitor infrastructure: environment configuration and stack wiring

    A shallow embedding of [infrastructure/bin/app.ts] (the CDK application
    entry point) and of the network stack that follows it in the same source
    file: the per-environment lookup tables [getVpcConfig] and
    [getLogRetention], the flow-log group properties, the [environments]
    record read from [process.env], and the [addDependency] wiring of the
    twelve stacks. *)

From stdpp Require Import gmap strings list.
From Stdlib Require Import Ascii ZArith.

Local Open Scope Z_scope.
Local Open Scope string_scope.

(** ** JavaScript values, as far as the program uses them *)

Module Js.

(** The result of reading a property: nothing, a value the program wrote,
    or one of the members every ordinary object inherits from
    [Object.prototype] (eleven functions and the [__proto__] accessor,
    which answers [Object.prototype] itself). *)
Inductive Value (A : Type) : Type :=
| Undefined : Value A
| Val (a : A) : Value A
| Proto (k : string) : Value A.

Global Arguments Undefined {A}.
Global Arguments Val {A} a.
Global Arguments Proto {A} k.

(** Property names of [Object.prototype] under Node.js. *)
Definition Object_prototype : list string :=
  [ "constructor"; "__defineGetter__"; "__defineSetter__"; "hasOwnProperty";
    "__lookupGetter__"; "__lookupSetter__"; "isPrototypeOf";
    "propertyIsEnumerable"; "toString"; "valueOf"; "__proto__";
    "toLocaleString" ].

(** [ToBoolean] on the values a table can hold. *)
Class Truthy (A : Type) := truthy : A → bool.

Global Instance string_truthy : Truthy string :=
  λ s, negb (String.eqb s "").

Global Instance Z_truthy : Truthy Z :=
  λ n, negb (Z.eqb n 0).

Section Operators.
Context {A : Type} `{Truthy A}.

(** Functions and objects are truthy, [undefined] is not. *)
Definition to_boolean (v : Value A) : bool :=
  match v with
  | Undefined => false
  | Val a => truthy a
  | Proto _ => true
  end.

(** [x || y] *)
Definition or (x y : Value A) : Value A :=
  if to_boolean x then x else y.

(** [o[k]] on an object literal (or [process.env]): own properties first,
    then the prototype chain, which ends at [Object.prototype]. *)
Definition get (o : gmap string A) (k : string) : Value A :=
  match o !! k with
  | Some a => Val a
  | None => if bool_decide (k ∈ Object_prototype) then Proto k else Undefined
  end.

End Operators.

(** [v.f] for a field [f] of the program's records: the inherited members
    carry none of them. *)
Definition field {A B : Type} (f : A → B) (v : Value A) : Value B :=
  match v with
  | Val a => Val (f a)
  | _ => Undefined
  end.

Global Instance Value_eq_dec {A} `{EqDecision A} : EqDecision (Value A).
Proof. solve_decision. Defined.

End Js.

Import Js.

(** ** aws-cdk-lib enumerations used by the network stack *)

(** [cdk.aws_logs.RetentionDays]: a numeric enum, the member's value is the
    number of days. *)
Inductive RetentionDays : Type :=
| ONE_WEEK
| TWO_WEEKS
| SIX_MONTHS.

Definition RetentionDays_value (r : RetentionDays) : Z :=
  match r with
  | ONE_WEEK => 7
  | TWO_WEEKS => 14
  | SIX_MONTHS => 180
  end.

#[global] Instance RetentionDays_truthy : Truthy RetentionDays :=
  λ r, truthy (RetentionDays_value r).

#[global] Instance RetentionDays_eq_dec : EqDecision RetentionDays.
Proof. solve_decision. Defined.

(** [cdk.RemovalPolicy], the two members the stack mentions. *)
Inductive RemovalPolicy : Type :=
| DESTROY
| RETAIN.

#[global] Instance RemovalPolicy_eq_dec : EqDecision RemovalPolicy.
Proof. solve_decision. Defined.

(** ** FleetMonitorNetworkStack *)

Module FleetMonitorNetworkStack.

(** An entry of the [configs] table. *)
Record VpcConfig : Type := mkVpcConfig {
  maxAzs : Z;
  cidr : string;
  natGateways : Z;
}.

(** An object literal is always truthy. *)
#[global] Instance VpcConfig_truthy : Truthy VpcConfig := λ _, true.

#[global] Instance VpcConfig_eq_dec : EqDecision VpcConfig.
Proof. solve_decision. Defined.

Definition configs : gmap string VpcConfig :=
  <["dev" := mkVpcConfig 2 "10.0.0.0/16" 1]>
  (<["staging" := mkVpcConfig 2 "10.1.0.0/16" 1]>
  (<["prod" := mkVpcConfig 3 "10.2.0.0/16" 2]> ∅)).

(** [return configs[env as keyof typeof configs] || configs.dev;] *)
Definition getVpcConfig (env : string) : Value VpcConfig :=
  or (get configs env) (get configs "dev").

Definition retentions : gmap string RetentionDays :=
  <["dev" := ONE_WEEK]>
  (<["staging" := TWO_WEEKS]>
  (<["prod" := SIX_MONTHS]> ∅)).

(** [return retentions[env as keyof typeof retentions] || retentions.dev;] *)
Definition getLogRetention (env : string) : Value RetentionDays :=
  or (get retentions env) (get retentions "dev").

(** Properties handed to [new ec2.Vpc(this, 'FleetMonitorVPC', ...)] that
    come from the resolved configuration. *)
Record VpcProps : Type := mkVpcProps {
  vpc_maxAzs : Value Z;
  vpc_cidr : Value string;
  vpc_natGateways : Value Z;
}.

Definition FleetMonitorVPC (environmentName : string) : VpcProps :=
  let vpcConfig := getVpcConfig environmentName in
  {| vpc_maxAzs := field maxAzs vpcConfig;
     vpc_cidr := field cidr vpcConfig;
     vpc_natGateways := field natGateways vpcConfig |}.

(** Properties handed to [new cdk.aws_logs.LogGroup(this, 'VPCFlowLogGroup', ...)]. *)
Record LogGroupProps : Type := mkLogGroupProps {
  logGroupName : string;
  retention : Value RetentionDays;
  removalPolicy : RemovalPolicy;
}.

Definition VPCFlowLogGroup (environmentName : string) : LogGroupProps :=
  {| logGroupName := "/aws/vpc/flowlogs/" +:+ environmentName;
     retention := getLogRetention environmentName;
     removalPolicy :=
       if String.eqb environmentName "prod" then RETAIN else DESTROY |}.

End FleetMonitorNetworkStack.

Import FleetMonitorNetworkStack.

(** ** IPv4 address blocks

    The [cidr] strings are handed to [ec2.Vpc] unread by the program; to
    speak of the addresses they denote they are read here the usual way
    (RFC 4632): four decimal octets, a slash, a prefix length. *)

Module Cidr.

Record Block : Type := mkBlock {
  base : Z;
  prefix : Z;
}.

Definition digit (c : ascii) : option Z :=
  let n := Z.of_N (Ascii.N_of_ascii c) in
  if bool_decide (48 ≤ n ≤ 57)%Z then Some (n - 48) else None.

Fixpoint decimal_from (acc : Z) (s : string) : option Z :=
  match s with
  | EmptyString => Some acc
  | String c s' =>
      match digit c with
      | Some d => decimal_from (10 * acc + d) s'
      | None => None
      end
  end.

Definition decimal (s : string) : option Z :=
  match s with
  | EmptyString => None
  | _ => decimal_from 0 s
  end.

Definition bounded (hi : Z) (s : string) : option Z :=
  match decimal s with
  | Some n => if bool_decide (n ≤ hi)%Z then Some n else None
  | None => None
  end.

Fixpoint split (sep : ascii) (s : string) : list string :=
  match s with
  | EmptyString => [EmptyString]
  | String c s' =>
      if Ascii.eqb c sep then EmptyString :: split sep s'
      else match split sep s' with
           | w :: ws => String c w :: ws
           | [] => [String c EmptyString]
           end
  end.

Definition parse (s : string) : option Block :=
  match split "/"%char s with
  | [addr; len] =>
      match bounded 255 <$> split "."%char addr, bounded 32 len with
      | [Some a; Some b; Some c; Some d], Some p =>
          Some (mkBlock (((a * 256 + b) * 256 + c) * 256 + d) p)
      | _, _ => None
      end
  | _ => None
  end.

(** Number of addresses in the block. *)
Definition capacity (b : Block) : Z := 2 ^ (32 - prefix b).

(** A 32-bit address lies in the block when it agrees with the base on the
    leading [prefix] bits. *)
Definition contains (b : Block) (a : Z) : bool :=
  Z.eqb (Z.shiftr a (32 - prefix b)) (Z.shiftr (base b) (32 - prefix b)).

End Cidr.

(** ** The CDK application: [bin/app.ts] *)

Module App.

(** An entry of the [environments] object: what [cdk.StackProps.env] takes. *)
Record Environment : Type := mkEnvironment {
  account : Value string;
  region : Value string;
}.

Record Environments : Type := mkEnvironments {
  dev : Environment;
  staging : Environment;
  prod : Environment;
}.

(** [const environments = { dev: {...}, staging: {...}, prod: {...} }],
    a function of [process.env]. *)
Definition environments (process_env : gmap string string) : Environments :=
  {| dev :=
       {| account := or (get process_env "CDK_DEFAULT_ACCOUNT")
                        (get process_env "AWS_ACCOUNT_ID");
          region := or (get process_env "CDK_DEFAULT_REGION") (Val "us-east-1") |};
     staging :=
       {| account := or (get process_env "CDK_DEFAULT_ACCOUNT")
                        (get process_env "AWS_ACCOUNT_ID");
          region := or (get process_env "CDK_DEFAULT_REGION") (Val "us-east-1") |};
     prod :=
       {| account := or (get process_env "CDK_DEFAULT_ACCOUNT")
                        (get process_env "AWS_ACCOUNT_ID");
          region := or (get process_env "CDK_DEFAULT_REGION") (Val "us-east-1") |} |}.

(** The four stack classes the application instantiates. *)
Inductive StackClass : Type :=
| FleetMonitorNetworkStack
| FleetMonitorSecurityStack
| FleetMonitorMonitoringStack
| FleetMonitorStack.

#[global] Instance StackClass_eq_dec : EqDecision StackClass.
Proof. solve_decision. Defined.

(** Constructor properties. [vpc] and [securityGroup] name the stack whose
    handle is passed in; the tags play no part in what follows and are left
    out. *)
Record StackProps : Type := mkStackProps {
  env : Environment;
  environmentName : string;
  vpc : option string;
  securityGroup : option string;
  stackName : string;
}.

(** A constructed stack: its class, its construct id and its properties. *)
Record Stack : Type := mkStack {
  class : StackClass;
  id : string;
  props : StackProps;
}.

(** The construct tree under [app], and the dependency relation between
    its stacks. CDK files a dependency under the dependent stack, keyed by
    the target, so declaring one twice records it once; [(a, b)] reads
    "[a] depends on [b]". *)
Record Tree : Type := mkTree {
  children : list Stack;
  dependencies : list (string * string);
}.

Definition empty : Tree := {| children := []; dependencies := [] |}.

(** The program is a sequence of statements that grow the tree. *)
Definition Synth (A : Type) : Type := Tree → A * Tree.

#[global] Instance Synth_ret : MRet Synth := λ A a t, (a, t).

#[global] Instance Synth_bind : MBind Synth :=
  λ A B f m t, let '(a, t') := m t in f a t'.

(** [new C(app, id, props)] *)
Definition new (C : StackClass) (i : string) (p : StackProps) : Synth Stack :=
  λ t, let s := mkStack C i p in
       (s, {| children := children t ++ [s]; dependencies := dependencies t |}).

(** [self.addDependency(target)]. CDK besides ignores a dependency of a
    stack on itself and refuses one that would close a cycle; neither check
    is modelled, and no call of [main] comes to either. *)
Definition addDependency (self target : Stack) : Synth () :=
  λ t, let e := (id self, id target) in
       (tt, {| children := children t;
               dependencies :=
                 if bool_decide (e ∈ dependencies t) then dependencies t
                 else dependencies t ++ [e] |}).

Definition main (process_env : gmap string string) : Synth () :=
  let environments := environments process_env in
  (* Development Environment *)
  devNetworkStack ← new FleetMonitorNetworkStack "FleetMonitorNetworkDev"
    (mkStackProps (dev environments) "dev" None None "fleet-monitor-network-dev");
  devSecurityStack ← new FleetMonitorSecurityStack "FleetMonitorSecurityDev"
    (mkStackProps (dev environments) "dev" (Some (id devNetworkStack)) None
       "fleet-monitor-security-dev");
  devMonitoringStack ← new FleetMonitorMonitoringStack "FleetMonitorMonitoringDev"
    (mkStackProps (dev environments) "dev" None None "fleet-monitor-monitoring-dev");
  devMainStack ← new FleetMonitorStack "FleetMonitorDev"
    (mkStackProps (dev environments) "dev" (Some (id devNetworkStack))
       (Some (id devSecurityStack)) "fleet-monitor-dev");
  addDependency devSecurityStack devNetworkStack;;
  addDependency devMainStack devNetworkStack;;
  addDependency devMainStack devSecurityStack;;
  addDependency devMonitoringStack devMainStack;;
  (* Staging Environment *)
  stagingNetworkStack ← new FleetMonitorNetworkStack "FleetMonitorNetworkStaging"
    (mkStackProps (staging environments) "staging" None None
       "fleet-monitor-network-staging");
  stagingSecurityStack ← new FleetMonitorSecurityStack "FleetMonitorSecurityStaging"
    (mkStackProps (staging environments) "staging" (Some (id stagingNetworkStack))
       None "fleet-monitor-security-staging");
  stagingMonitoringStack ← new FleetMonitorMonitoringStack
    "FleetMonitorMonitoringStaging"
    (mkStackProps (staging environments) "staging" None None
       "fleet-monitor-monitoring-staging");
  stagingMainStack ← new FleetMonitorStack "FleetMonitorStaging"
    (mkStackProps (staging environments) "staging" (Some (id stagingNetworkStack))
       (Some (id stagingSecurityStack)) "fleet-monitor-staging");
  addDependency stagingSecurityStack stagingNetworkStack;;
  addDependency stagingMainStack stagingNetworkStack;;
  addDependency stagingMainStack stagingSecurityStack;;
  addDependency stagingMonitoringStack stagingMainStack;;
  (* Production Environment *)
  prodNetworkStack ← new FleetMonitorNetworkStack "FleetMonitorNetworkProd"
    (mkStackProps (prod environments) "prod" None None "fleet-monitor-network-prod");
  prodSecurityStack ← new FleetMonitorSecurityStack "FleetMonitorSecurityProd"
    (mkStackProps (prod environments) "prod" (Some (id prodNetworkStack)) None
       "fleet-monitor-security-prod");
  prodMonitoringStack ← new FleetMonitorMonitoringStack "FleetMonitorMonitoringProd"
    (mkStackProps (prod environments) "prod" None None "fleet-monitor-monitoring-prod");
  prodMainStack ← new FleetMonitorStack "FleetMonitorProd"
    (mkStackProps (prod environments) "prod" (Some (id prodNetworkStack))
       (Some (id prodSecurityStack)) "fleet-monitor-prod");
  addDependency prodSecurityStack prodNetworkStack;;
  addDependency prodMainStack prodNetworkStack;;
  addDependency prodMainStack prodSecurityStack;;
  addDependency prodMonitoringStack prodMainStack.

(** The tree the application leaves behind. *)
Definition synth (process_env : gmap string string) : Tree :=
  snd (main process_env empty).

(** [a ≺ b]: [b] was declared to depend on [a]. *)
Definition precedes (t : Tree) (a b : Stack) : Prop :=
  (id b, id a) ∈ dependencies t.

(** The tier a stack belongs to is the environment name it was built with;
    its unit kind is its class. *)
Definition same_tier (a b : Stack) : Prop :=
  environmentName (props a) = environmentName (props b).

(** What identifies a unit: its construct id, its kind and its tier. *)
Definition summary (s : Stack) : string * StackClass * string :=
  (id s, class s, environmentName (props s)).

End App.

Import FleetMonitorNetworkStack.

(** The ordering the composition is meant to record between unit kinds:
    network before security and main, security before main, main before
    monitoring. *)
Definition must_precede (a b : App.StackClass) : bool :=
  match a, b with
  | App.FleetMonitorNetworkStack, App.FleetMonitorSecurityStack
  | App.FleetMonitorNetworkStack, App.FleetMonitorStack
  | App.FleetMonitorSecurityStack, App.FleetMonitorStack
  | App.FleetMonitorStack, App.FleetMonitorMonitoringStack => true
  | _, _ => false
  end.

(** A region read the way one variable with a second one behind it would
    be read: the primary name, then the fallback name, then the default. *)
Definition region_with_fallback (primary fallback default : string)
    (process_env : gmap string string) : Value string :=
  or (or (get process_env primary) (get process_env fallback)) (Val default).

(** Splits a membership in a literal list into its cases. *)
Ltac enumerate H :=
  repeat (apply elem_of_cons in H as [H|H]); [..|by apply elem_of_nil in H].

(** Replaces a unit's id, kind and tier by the literal ones of its summary. *)
Ltac known_unit H :=
  unfold App.summary in H; injection H as -> -> ->.

(** ** The rest of the network stack's constructor *)

Module Network.

(** [ec2.SubnetType], the members the stack uses. *)
Inductive SubnetType : Type :=
| PUBLIC
| PRIVATE_WITH_EGRESS
| PRIVATE_ISOLATED.

Record SubnetConfiguration : Type := mkSubnetConfiguration {
  cidrMask : Z;
  name : string;
  subnetType : SubnetType;
}.

(** The [subnetConfiguration] handed to [ec2.Vpc]: one subnet of each entry
    is laid out in every availability zone. *)
Definition subnetConfiguration : list SubnetConfiguration :=
  [ mkSubnetConfiguration 24 "Public" PUBLIC;
    mkSubnetConfiguration 24 "Private" PRIVATE_WITH_EGRESS;
    mkSubnetConfiguration 28 "Isolated" PRIVATE_ISOLATED ].

(** Addresses one availability zone takes out of the VPC's block. *)
Definition addresses_per_zone (l : list SubnetConfiguration) : Z :=
  foldr (λ s n, 2 ^ (32 - cidrMask s) + n) 0 l.

(** What the constructor reads from the VPC it has built. *)
Record ISubnet : Type := mkISubnet {
  subnetId : string;
}.

Record Vpc : Type := mkVpc {
  vpcId : string;
  vpcCidrBlock : string;
  publicSubnets : list ISubnet;
  privateSubnets : list ISubnet;
}.

(** [new cdk.CfnOutput(this, id, { value, description, exportName })] *)
Record CfnOutput : Type := mkCfnOutput {
  output_id : string;
  value : string;
  description : string;
  exportName : option string;
}.

(** [ids.join(',')]; on strings this is [String.concat]. *)
Definition join (sep : string) (l : list string) : string :=
  String.concat sep l.

(** The four CloudFormation outputs, in the order the constructor declares
    them. *)
Definition outputs (vpc : Vpc) (environmentName : string) : list CfnOutput :=
  [ mkCfnOutput "VpcId" (vpcId vpc) "Fleet Monitor VPC ID"
      (Some ("FleetMonitor-VPC-" +:+ environmentName));
    mkCfnOutput "VpcCidr" (vpcCidrBlock vpc) "Fleet Monitor VPC CIDR Block" None;
    mkCfnOutput "PublicSubnetIds" (join "," (subnetId <$> publicSubnets vpc))
      "Public Subnet IDs"
      (Some ("FleetMonitor-PublicSubnets-" +:+ environmentName));
    mkCfnOutput "PrivateSubnetIds" (join "," (subnetId <$> privateSubnets vpc))
      "Private Subnet IDs"
      (Some ("FleetMonitor-PrivateSubnets-" +:+ environmentName)) ].

(** The export names a stack claims in its account and region. *)
Definition exportNames (vpc : Vpc) (environmentName : string) : list string :=
  omap exportName (outputs vpc environmentName).

(** No comma in a string. *)
Fixpoint comma_free (s : string) : bool :=
  match s with
  | EmptyString => true
  | String c s' => negb (Ascii.eqb c ","%char) && comma_free s'
  end.

End Network.

(** ** The tags given to the stacks in [bin/app.ts] *)

Module Tags.

Definition commonTags : gmap string string :=
  <["Project" := "Fleet Monitor"]>
  (<["Owner" := "Diego Cruz"]>
  (<["Purpose" := "DevSecOps Portfolio Demonstration"]>
  (<["Repository" := "https://github.com/diegocruzo/fleet-monitor-devops"]>
  (<["ManagedBy" := "AWS CDK"]> ∅)))).

(** [{ ...o, k: v }]: the later key wins. *)
Definition with_tag (k v : string) (o : gmap string string) : gmap string string :=
  <[k := v]> o.

(** The [tags] property of each constructor call, by construct id, in the
    order of the calls. *)
Definition stackTags : list (string * gmap string string) :=
  [ ("FleetMonitorNetworkDev",
      with_tag "CostCenter" "Development" (with_tag "Environment" "Development" commonTags));
    ("FleetMonitorSecurityDev",
      with_tag "CostCenter" "Development" (with_tag "Environment" "Development" commonTags));
    ("FleetMonitorMonitoringDev",
      with_tag "CostCenter" "Development" (with_tag "Environment" "Development" commonTags));
    ("FleetMonitorDev",
      with_tag "CostCenter" "Development" (with_tag "Environment" "Development" commonTags));
    ("FleetMonitorNetworkStaging",
      with_tag "CostCenter" "Testing" (with_tag "Environment" "Staging" commonTags));
    ("FleetMonitorSecurityStaging",
      with_tag "CostCenter" "Testing" (with_tag "Environment" "Staging" commonTags));
    ("FleetMonitorMonitoringStaging",
      with_tag "CostCenter" "Testing" (with_tag "Environment" "Staging" commonTags));
    ("FleetMonitorStaging",
      with_tag "CostCenter" "Testing" (with_tag "Environment" "Staging" commonTags));
    ("FleetMonitorNetworkProd",
      with_tag "Backup" "Required" (with_tag "CostCenter" "Production"
        (with_tag "Environment" "Production" commonTags)));
    ("FleetMonitorSecurityProd",
      with_tag "Backup" "Required" (with_tag "CostCenter" "Production"
        (with_tag "Environment" "Production" commonTags)));
    ("FleetMonitorMonitoringProd",
      with_tag "Backup" "Required" (with_tag "CostCenter" "Production"
        (with_tag "Environment" "Production" commonTags)));
    ("FleetMonitorProd",
      with_tag "Backup" "Required" (with_tag "CostCenter" "Production"
        (with_tag "Environment" "Production" commonTags))) ].

End Tags.

(** What the network stack's constructor adds to the tags it was given:
    [cdk.Tags.of(this).add('StackType', 'Network')] on the stack and all it
    holds, and on the VPC
    [cdk.Tags.of(this.vpc).add('Name', `FleetMonitor-VPC-${environmentName}`)]
    besides. *)
Definition networkStackTags (tags : gmap string string) : gmap string string :=
  Tags.with_tag "StackType" "Network" tags.

Definition vpcTags (environmentName : string) (tags : gmap string string)
    : gmap string string :=
  Tags.with_tag "Name" ("FleetMonitor-VPC-" +:+ environmentName)
    (networkStackTags tags).

(** ** Reading the dependency relation *)

(** Position of a unit kind in the order the tiers are brought up. *)
Definition rank (c : App.StackClass) : nat :=
  match c with
  | App.FleetMonitorNetworkStack => 0
  | App.FleetMonitorSecurityStack => 1
  | App.FleetMonitorStack => 2
  | App.FleetMonitorMonitoringStack => 3
  end.

(** [depends_on t x y]: the stack with id [x] was declared to depend on the
    stack with id [y]. *)
Definition depends_on (t : App.Tree) (x y : string) : Prop :=
  (x, y) ∈ App.dependencies t.

(** The class that hands out each kind of handle. *)
Definition produces_vpc (s : App.Stack) : Prop :=
  App.class s = App.FleetMonitorNetworkStack.

Definition produces_securityGroup (s : App.Stack) : Prop :=
  App.class s = App.FleetMonitorSecurityStack.

(** Everything a stack was built with, but its [env]. *)
Definition unit_wiring (s : App.Stack)
    : string * App.StackClass * string * option string * option string * string :=
  (App.id s, App.class s, App.environmentName (App.props s),
   App.vpc (App.props s), App.securityGroup (App.props s),
   App.stackName (App.props s)).

(** How a stack name spells the unit kind. *)
Definition kind_infix (c : App.StackClass) : string :=
  match c with
  | App.FleetMonitorNetworkStack => "network-"
  | App.FleetMonitorSecurityStack => "security-"
  | App.FleetMonitorMonitoringStack => "monitoring-"
  | App.FleetMonitorStack => ""
  end.

(** Names a stack of the application by its wiring: [W] is the membership
    of [s] among the children, which is replaced by the twelve cases. *)
Ltac known_wiring lem W s :=
  apply (list_elem_of_fmap_2 unit_wiring) in W; rewrite lem in W;
  destruct s as [? ? [? ? ? ? ?]]; unfold unit_wiring in W;
  cbn [App.id App.class App.props App.environmentName App.vpc
       App.securityGroup App.stackName] in W |- *;
  enumerate W; injection W as -> -> -> -> -> ->.

(** * Properties *)

(** ** The lookup tables *)

Lemma configs_lookup (e : string) :
  configs !! e =
    if decide (e = "dev") then Some (mkVpcConfig 2 "10.0.0.0/16" 1)
    else if decide (e = "staging") then Some (mkVpcConfig 2 "10.1.0.0/16" 1)
    else if decide (e = "prod") then Some (mkVpcConfig 3 "10.2.0.0/16" 2)
    else None.
Proof.
  unfold configs. rewrite !lookup_insert, lookup_empty.
  repeat case_decide; congruence.
Qed.

Lemma retentions_lookup (e : string) :
  retentions !! e =
    if decide (e = "dev") then Some ONE_WEEK
    else if decide (e = "staging") then Some TWO_WEEKS
    else if decide (e = "prod") then Some SIX_MONTHS
    else None.
Proof.
  unfold retentions. rewrite !lookup_insert, lookup_empty.
  repeat case_decide; congruence.
Qed.

(** What each resolver answers, by cases on its argument. *)
Lemma getVpcConfig_cases (e : string) :
  getVpcConfig e =
    match configs !! e with
    | Some c => Val c
    | None =>
        if bool_decide (e ∈ Object_prototype) then Proto e
        else Val (mkVpcConfig 2 "10.0.0.0/16" 1)
    end.
Proof.
  unfold getVpcConfig, or, get.
  destruct (configs !! e) as [c|]; [reflexivity|].
  case_bool_decide; reflexivity.
Qed.

Lemma getLogRetention_cases (e : string) :
  getLogRetention e =
    match retentions !! e with
    | Some r => Val r
    | None =>
        if bool_decide (e ∈ Object_prototype) then Proto e else Val ONE_WEEK
    end.
Proof.
  unfold getLogRetention, or, get.
  destruct (retentions !! e) as [r|]; [by destruct r|].
  case_bool_decide; reflexivity.
Qed.

(** Away from the names [Object.prototype] defines, an unlisted name is
    answered with the [dev] entries. *)
Lemma resolvers_fall_back (e : string) :
  e ∉ Object_prototype →
  e ∉ ["dev"; "staging"; "prod"] →
  getVpcConfig e = getVpcConfig "dev" ∧ getLogRetention e = getLogRetention "dev".
Proof.
  intros Hproto Htier.
  rewrite getVpcConfig_cases, getLogRetention_cases.
  rewrite configs_lookup, retentions_lookup.
  rewrite !not_elem_of_cons in Htier. destruct Htier as (? & ? & ? & _).
  rewrite !decide_False by done.
  rewrite bool_decide_eq_false_2 by done.
  split; reflexivity.
Qed.

(** A listed name is answered with its own entry. *)
Lemma resolvers_listed (e : string) (c : VpcConfig) (r : RetentionDays) :
  configs !! e = Some c → retentions !! e = Some r →
  getVpcConfig e = Val c ∧ getLogRetention e = Val r.
Proof.
  intros Hc Hr. rewrite getVpcConfig_cases, getLogRetention_cases, Hc, Hr.
  split; reflexivity.
Qed.

(** A name [Object.prototype] defines is answered with the inherited
    member, never with the [dev] entries. *)
Lemma resolvers_inherited (e : string) :
  e ∈ Object_prototype →
  getVpcConfig e = Proto e ∧ getLogRetention e = Proto e.
Proof.
  intros He. rewrite getVpcConfig_cases, getLogRetention_cases.
  rewrite configs_lookup, retentions_lookup.
  unfold Object_prototype in He. enumerate He; subst e; split; reflexivity.
Qed.

(** C1. The claim is that every string outside 'dev', 'staging', 'prod' is
    answered like 'dev'. At the string 'constructor' both resolvers answer
    with the member of that name inherited from [Object.prototype], which is
    truthy, so the [|| configs.dev] branch is not taken: the answer is not
    the dev entry, and the sizing fields read from it are undefined. *)
Theorem C1_inherited_name_bypasses_default :
  getVpcConfig "constructor" = Proto "constructor" ∧
  getLogRetention "constructor" = Proto "constructor" ∧
  getVpcConfig "dev" = Val (mkVpcConfig 2 "10.0.0.0/16" 1) ∧
  getLogRetention "dev" = Val ONE_WEEK ∧
  bool_decide (getVpcConfig "constructor" = getVpcConfig "dev") = false ∧
  bool_decide (getLogRetention "constructor" = getLogRetention "dev") = false ∧
  FleetMonitorVPC "constructor" = mkVpcProps Undefined Undefined Undefined.
Proof. repeat split; vm_compute; reflexivity. Qed.

(** C2. Resolving 'staging' gives 2 availability zones, the address block
    10.1.0.0/16 and 1 NAT gateway from [getVpcConfig], and TWO_WEEKS from
    [getLogRetention]. *)
Theorem C2_staging_scenario :
  getVpcConfig "staging" = Val (mkVpcConfig 2 "10.1.0.0/16" 1) ∧
  getLogRetention "staging" = Val TWO_WEEKS.
Proof. split; vm_compute; reflexivity. Qed.

(** C3. Resolving the unlisted name 'typo-env' gives what resolving 'dev'
    gives: 2 availability zones, 10.0.0.0/16, 1 NAT gateway, ONE_WEEK. *)
Theorem C3_typo_env_scenario :
  getVpcConfig "typo-env" = getVpcConfig "dev" ∧
  getLogRetention "typo-env" = getLogRetention "dev" ∧
  getVpcConfig "typo-env" = Val (mkVpcConfig 2 "10.0.0.0/16" 1) ∧
  getLogRetention "typo-env" = Val ONE_WEEK.
Proof.
  assert (getVpcConfig "typo-env" = getVpcConfig "dev" ∧
          getLogRetention "typo-env" = getLogRetention "dev") as [Hv Hl].
  { apply resolvers_fall_back; compute_done. }
  rewrite Hv, Hl. repeat split; vm_compute; reflexivity.
Qed.

(** ** Sizing across tiers *)

Lemma parse_dev : Cidr.parse "10.0.0.0/16" = Some (Cidr.mkBlock 167772160 16).
Proof. vm_compute. reflexivity. Qed.

Lemma parse_staging : Cidr.parse "10.1.0.0/16" = Some (Cidr.mkBlock 167837696 16).
Proof. vm_compute. reflexivity. Qed.

Lemma parse_prod : Cidr.parse "10.2.0.0/16" = Some (Cidr.mkBlock 167903232 16).
Proof. vm_compute. reflexivity. Qed.

(** Two blocks of one prefix length whose bases differ in the leading bits
    share no address. *)
Lemma contains_disjoint (b1 b2 : Cidr.Block) (a : Z) :
  Cidr.prefix b1 = Cidr.prefix b2 →
  Z.shiftr (Cidr.base b1) (32 - Cidr.prefix b1)
    ≠ Z.shiftr (Cidr.base b2) (32 - Cidr.prefix b2) →
  Cidr.contains b1 a && Cidr.contains b2 a = false.
Proof.
  unfold Cidr.contains. intros Hp Hne. rewrite <- Hp in *.
  destruct (Z.eqb_spec (Z.shiftr a (32 - Cidr.prefix b1))
              (Z.shiftr (Cidr.base b1) (32 - Cidr.prefix b1))) as [E1|]; [|done].
  destruct (Z.eqb_spec (Z.shiftr a (32 - Cidr.prefix b1))
              (Z.shiftr (Cidr.base b2) (32 - Cidr.prefix b1))) as [E2|]; [|done].
  congruence.
Qed.

(** C4. The prod entry has at least as many NAT gateways as the dev entry
    (2 against 1), and its address block holds at least as many addresses
    (both are /16 blocks of 65536 addresses). *)
Theorem C4_prod_not_smaller_than_dev :
  ∃ (p d : VpcConfig) (bp bd : Cidr.Block),
    getVpcConfig "prod" = Val p ∧ getVpcConfig "dev" = Val d ∧
    Cidr.parse (cidr p) = Some bp ∧ Cidr.parse (cidr d) = Some bd ∧
    (natGateways d ≤ natGateways p)%Z ∧
    (Cidr.capacity bd ≤ Cidr.capacity bp)%Z ∧
    natGateways p = 2 ∧ natGateways d = 1 ∧
    Cidr.capacity bp = 65536 ∧ Cidr.capacity bd = 65536.
Proof.
  eexists _, _, _, _.
  split; [vm_compute; reflexivity|].
  split; [vm_compute; reflexivity|].
  split; [exact parse_prod|].
  split; [exact parse_dev|].
  unfold Cidr.capacity. cbn. repeat split; lia.
Qed.

(** C7. The three tiers' address blocks, 10.0.0.0/16 for dev, 10.1.0.0/16
    for staging and 10.2.0.0/16 for prod, are pairwise disjoint: no address
    lies in two of them. *)
Theorem C7_address_blocks_disjoint :
  ∃ bd bs bp : Cidr.Block,
    field cidr (getVpcConfig "dev") = Val "10.0.0.0/16" ∧
    field cidr (getVpcConfig "staging") = Val "10.1.0.0/16" ∧
    field cidr (getVpcConfig "prod") = Val "10.2.0.0/16" ∧
    Cidr.parse "10.0.0.0/16" = Some bd ∧
    Cidr.parse "10.1.0.0/16" = Some bs ∧
    Cidr.parse "10.2.0.0/16" = Some bp ∧
    ∀ a : Z,
      Cidr.contains bd a && Cidr.contains bs a = false ∧
      Cidr.contains bd a && Cidr.contains bp a = false ∧
      Cidr.contains bs a && Cidr.contains bp a = false.
Proof.
  eexists _, _, _.
  do 3 (split; [vm_compute; reflexivity|]).
  split; [exact parse_dev|].
  split; [exact parse_staging|].
  split; [exact parse_prod|].
  intros a. repeat split; apply contains_disjoint; done.
Qed.

(** C10. The prod entry asks for 3 availability zones, strictly more than
    the 2 of the dev entry and the 2 of the staging entry. *)
Theorem C10_prod_has_most_zones :
  ∃ p d s : VpcConfig,
    getVpcConfig "prod" = Val p ∧ getVpcConfig "dev" = Val d ∧
    getVpcConfig "staging" = Val s ∧
    maxAzs p = 3 ∧ maxAzs d = 2 ∧ maxAzs s = 2 ∧
    (maxAzs d < maxAzs p)%Z ∧ (maxAzs s < maxAzs p)%Z.
Proof.
  eexists _, _, _.
  do 3 (split; [vm_compute; reflexivity|]).
  cbn. repeat split; lia.
Qed.

(** ** The flow-log group *)

Lemma append_inj_r (p s1 s2 : string) : p +:+ s1 = p +:+ s2 → s1 = s2.
Proof. induction p as [|c p IH]; cbn; [done|]. intros [=]. auto. Qed.

(** C8. The flow-log group is retained on removal exactly when the
    environment name is the string 'prod', and destroyed for every other
    string, a misspelling such as 'Prod' included. *)
Theorem C8_removal_policy :
  ∀ e : string,
    (removalPolicy (VPCFlowLogGroup e) = RETAIN ↔ e = "prod") ∧
    (removalPolicy (VPCFlowLogGroup e) = DESTROY ↔ e ≠ "prod") ∧
    removalPolicy (VPCFlowLogGroup "Prod") = DESTROY.
Proof.
  intros e. cbn [VPCFlowLogGroup removalPolicy].
  destruct (String.eqb_spec e "prod") as [->|Hne].
  - repeat split; done.
  - repeat split; done.
Qed.

(** C9. The flow-log group is named '/aws/vpc/flowlogs/' followed by the
    environment name as given, so the name equals the dev group's name only
    for 'dev' itself; 'typo-env' gets the dev retention under a name of its
    own. *)
Theorem C9_log_group_name :
  (∀ e : string,
     logGroupName (VPCFlowLogGroup e) = "/aws/vpc/flowlogs/" +:+ e ∧
     (logGroupName (VPCFlowLogGroup e) = logGroupName (VPCFlowLogGroup "dev")
        ↔ e = "dev")) ∧
  retention (VPCFlowLogGroup "typo-env") = retention (VPCFlowLogGroup "dev") ∧
  logGroupName (VPCFlowLogGroup "typo-env") = "/aws/vpc/flowlogs/typo-env" ∧
  logGroupName (VPCFlowLogGroup "dev") = "/aws/vpc/flowlogs/dev".
Proof.
  split.
  - intros e. cbn [VPCFlowLogGroup logGroupName]. split; [reflexivity|].
    split; [apply append_inj_r | by intros ->].
  - repeat split; vm_compute; reflexivity.
Qed.

(** ** The environments read from [process.env] *)

(** Reading a variable whose name [Object.prototype] does not define. *)
Lemma get_plain_name {A : Type} `{Truthy A} (o : gmap string A) (k : string) :
  k ∉ Object_prototype →
  get o k = match o !! k with Some a => Val a | None => Undefined end.
Proof.
  intros Hk. unfold get. destruct (o !! k); [reflexivity|].
  by rewrite bool_decide_eq_false_2.
Qed.

Lemma or_string_cases (s : string) (y : Value string) :
  or (Val s) y = if String.eqb s "" then y else Val s.
Proof. unfold or, to_boolean, truthy, string_truthy. by destruct (String.eqb s ""). Qed.

Lemma region_cases (process_env : gmap string string) :
  App.region (App.dev (App.environments process_env)) =
    match process_env !! "CDK_DEFAULT_REGION" with
    | Some s => if String.eqb s "" then Val "us-east-1" else Val s
    | None => Val "us-east-1"
    end.
Proof.
  cbn [App.environments App.dev App.region].
  rewrite get_plain_name by compute_done.
  destruct (process_env !! "CDK_DEFAULT_REGION") as [s|]; [|reflexivity].
  apply or_string_cases.
Qed.

Lemma account_cases (process_env : gmap string string) :
  App.account (App.dev (App.environments process_env)) =
    match process_env !! "CDK_DEFAULT_ACCOUNT", process_env !! "AWS_ACCOUNT_ID" with
    | Some s, Some s' => if String.eqb s "" then Val s' else Val s
    | Some s, None => if String.eqb s "" then Undefined else Val s
    | None, Some s' => Val s'
    | None, None => Undefined
    end.
Proof.
  cbn [App.environments App.dev App.account].
  rewrite !get_plain_name by compute_done.
  destruct (process_env !! "CDK_DEFAULT_ACCOUNT") as [s|],
    (process_env !! "AWS_ACCOUNT_ID") as [s'|];
    rewrite ?or_string_cases; reflexivity.
Qed.

(** C6, as stated, fails for the region: with only AWS_REGION set the region
    is still the hard-coded one, and no choice of a primary and a distinct
    fallback variable name (with any default) describes how the region is
    read. *)
Lemma C6_region_has_no_fallback_variable :
  App.region (App.dev (App.environments {["AWS_REGION" := "eu-west-1"]}))
    = Val "us-east-1" ∧
  ¬ ∃ primary fallback default : string,
      primary ≠ fallback ∧
      ∀ process_env : gmap string string,
        App.region (App.dev (App.environments process_env))
          = region_with_fallback primary fallback default process_env.
Proof.
  split; [vm_compute; reflexivity|].
  intros (p & f & d & Hne & Hall).
  destruct (decide (f = "CDK_DEFAULT_REGION")) as [->|Hf].
  - specialize (Hall (<[p := "a"]> {["CDK_DEFAULT_REGION" := "b"]})).
    rewrite region_cases in Hall.
    rewrite lookup_insert_ne, lookup_singleton_eq in Hall by done.
    unfold region_with_fallback, get in Hall.
    rewrite lookup_insert_eq in Hall. discriminate Hall.
  - specialize (Hall {[f := "x"]}).
    rewrite region_cases, lookup_singleton_ne in Hall by done.
    unfold region_with_fallback, get in Hall.
    rewrite lookup_singleton_ne, lookup_singleton_eq in Hall by done.
    case_bool_decide; discriminate Hall.
Qed.

(** C6, amended. All three environments are read alike. The account comes
    from CDK_DEFAULT_ACCOUNT, and from AWS_ACCOUNT_ID when that is unset or
    empty. The region comes from the single variable CDK_DEFAULT_REGION, and
    is 'us-east-1' when that is unset or empty; no second region variable is
    read. *)
Theorem C6_environment_variables :
  ∀ process_env : gmap string string,
    App.staging (App.environments process_env)
      = App.dev (App.environments process_env) ∧
    App.prod (App.environments process_env)
      = App.dev (App.environments process_env) ∧
    App.account (App.dev (App.environments process_env)) =
      match process_env !! "CDK_DEFAULT_ACCOUNT", process_env !! "AWS_ACCOUNT_ID" with
      | Some s, Some s' => if String.eqb s "" then Val s' else Val s
      | Some s, None => if String.eqb s "" then Undefined else Val s
      | None, Some s' => Val s'
      | None, None => Undefined
      end ∧
    App.region (App.dev (App.environments process_env)) =
      match process_env !! "CDK_DEFAULT_REGION" with
      | Some s => if String.eqb s "" then Val "us-east-1" else Val s
      | None => Val "us-east-1"
      end.
Proof.
  intros process_env.
  split; [reflexivity|]. split; [reflexivity|].
  split; [apply account_cases | apply region_cases].
Qed.

(** ** Stack wiring *)

Lemma synth_dependencies (process_env : gmap string string) :
  App.dependencies (App.synth process_env) =
    [ ("FleetMonitorSecurityDev", "FleetMonitorNetworkDev");
      ("FleetMonitorDev", "FleetMonitorNetworkDev");
      ("FleetMonitorDev", "FleetMonitorSecurityDev");
      ("FleetMonitorMonitoringDev", "FleetMonitorDev");
      ("FleetMonitorSecurityStaging", "FleetMonitorNetworkStaging");
      ("FleetMonitorStaging", "FleetMonitorNetworkStaging");
      ("FleetMonitorStaging", "FleetMonitorSecurityStaging");
      ("FleetMonitorMonitoringStaging", "FleetMonitorStaging");
      ("FleetMonitorSecurityProd", "FleetMonitorNetworkProd");
      ("FleetMonitorProd", "FleetMonitorNetworkProd");
      ("FleetMonitorProd", "FleetMonitorSecurityProd");
      ("FleetMonitorMonitoringProd", "FleetMonitorProd") ].
Proof. vm_compute. reflexivity. Qed.

(** Twelve stacks: one of each class for each of the three tiers. *)
Lemma synth_units (process_env : gmap string string) :
  App.summary <$> App.children (App.synth process_env) =
    [ ("FleetMonitorNetworkDev", App.FleetMonitorNetworkStack, "dev");
      ("FleetMonitorSecurityDev", App.FleetMonitorSecurityStack, "dev");
      ("FleetMonitorMonitoringDev", App.FleetMonitorMonitoringStack, "dev");
      ("FleetMonitorDev", App.FleetMonitorStack, "dev");
      ("FleetMonitorNetworkStaging", App.FleetMonitorNetworkStack, "staging");
      ("FleetMonitorSecurityStaging", App.FleetMonitorSecurityStack, "staging");
      ("FleetMonitorMonitoringStaging", App.FleetMonitorMonitoringStack, "staging");
      ("FleetMonitorStaging", App.FleetMonitorStack, "staging");
      ("FleetMonitorNetworkProd", App.FleetMonitorNetworkStack, "prod");
      ("FleetMonitorSecurityProd", App.FleetMonitorSecurityStack, "prod");
      ("FleetMonitorMonitoringProd", App.FleetMonitorMonitoringStack, "prod");
      ("FleetMonitorProd", App.FleetMonitorStack, "prod") ].
Proof. vm_compute. reflexivity. Qed.

Lemma unit_summary (process_env : gmap string string) (a : App.Stack) :
  a ∈ App.children (App.synth process_env) →
  App.summary a ∈ App.summary <$> App.children (App.synth process_env).
Proof. apply list_elem_of_fmap_2. Qed.

(** A stack can be found from its summary. *)
Lemma unit_of_summary (process_env : gmap string string)
    (i : string) (c : App.StackClass) (e : string) :
  (i, c, e) ∈ App.summary <$> App.children (App.synth process_env) →
  ∃ s : App.Stack,
    s ∈ App.children (App.synth process_env) ∧
    App.id s = i ∧ App.class s = c ∧ App.environmentName (App.props s) = e.
Proof.
  intros Hin. apply list_elem_of_fmap_1 in Hin as (s & Hs & Hin).
  unfold App.summary in Hs. injection Hs as -> -> ->. by exists s.
Qed.

(** Where [f] takes pairwise distinct values on a list, it tells the
    members of the list apart. *)
Lemma distinct_images {A B : Type} (f : A → B) (l : list A) (a b : A) :
  NoDup (f <$> l) → a ∈ l → b ∈ l → f a = f b → a = b.
Proof.
  intros Hnd Ha Hb Hf.
  apply list_elem_of_lookup in Ha as [i Hi]. apply list_elem_of_lookup in Hb as [j Hj].
  assert (i = j) as ->.
  { apply (NoDup_lookup (f <$> l) i j (f a)); [done| |];
      rewrite list_lookup_fmap; [rewrite Hi | rewrite Hj]; cbn; congruence. }
  congruence.
Qed.

Lemma synth_ids_distinct (process_env : gmap string string) :
  NoDup (App.id <$> App.children (App.synth process_env)).
Proof.
  assert (App.id <$> App.children (App.synth process_env)
            = (λ u, u.1.1) <$> (App.summary <$> App.children (App.synth process_env)))
    as -> by (rewrite <- list_fmap_compose; reflexivity).
  rewrite synth_units. compute_done.
Qed.

(** Tier and kind name the construct id. *)
Lemma tier_and_kind_give_id (process_env : gmap string string) (a b : App.Stack) :
  a ∈ App.children (App.synth process_env) →
  b ∈ App.children (App.synth process_env) →
  App.same_tier a b → App.class a = App.class b → App.id a = App.id b.
Proof.
  intros Ha Hb. apply unit_summary in Ha, Hb. rewrite synth_units in Ha, Hb.
  unfold App.same_tier.
  destruct a as [ca ia [ea na va ga sa]], b as [cb ib [eb nb vb gb sb]].
  cbn [App.id App.class App.props App.environmentName].
  enumerate Ha; known_unit Ha; enumerate Hb; known_unit Hb; compute_done.
Qed.

(** The four units of a tier and their four edges, given the construct ids
    the tier's stacks were built under. *)
Lemma tier_wired (process_env : gmap string string) (e n s m x : string) :
  (n, App.FleetMonitorNetworkStack, e)
    ∈ App.summary <$> App.children (App.synth process_env) →
  (s, App.FleetMonitorSecurityStack, e)
    ∈ App.summary <$> App.children (App.synth process_env) →
  (m, App.FleetMonitorMonitoringStack, e)
    ∈ App.summary <$> App.children (App.synth process_env) →
  (x, App.FleetMonitorStack, e)
    ∈ App.summary <$> App.children (App.synth process_env) →
  (s, n) ∈ App.dependencies (App.synth process_env) →
  (x, n) ∈ App.dependencies (App.synth process_env) →
  (x, s) ∈ App.dependencies (App.synth process_env) →
  (m, x) ∈ App.dependencies (App.synth process_env) →
  ∃ network security monitoring main : App.Stack,
    Forall (λ u, u ∈ App.children (App.synth process_env) ∧
                 App.environmentName (App.props u) = e)
      [network; security; monitoring; main] ∧
    App.class network = App.FleetMonitorNetworkStack ∧
    App.class security = App.FleetMonitorSecurityStack ∧
    App.class monitoring = App.FleetMonitorMonitoringStack ∧
    App.class main = App.FleetMonitorStack ∧
    App.precedes (App.synth process_env) network security ∧
    App.precedes (App.synth process_env) network main ∧
    App.precedes (App.synth process_env) security main ∧
    App.precedes (App.synth process_env) main monitoring.
Proof.
  intros Hn Hs Hm Hx Hsn Hxn Hxs Hmx.
  apply unit_of_summary in Hn as (network & ? & <- & ? & ?).
  apply unit_of_summary in Hs as (security & ? & <- & ? & ?).
  apply unit_of_summary in Hm as (monitoring & ? & <- & ? & ?).
  apply unit_of_summary in Hx as (main & ? & <- & ? & ?).
  exists network, security, monitoring, main.
  split.
  - repeat (apply Forall_cons; split; [by split|]). apply Forall_nil_2.
  - unfold App.precedes. repeat (split; [done|]). done.
Qed.

(** C5. Each of the three tiers has its four units (a network, a security,
    a monitoring and a main stack), and among them the edges network before
    security, network before main, security before main and main before
    monitoring are recorded. Every stack belongs to one of the three tiers
    and is the only one of its kind there. Between any two stacks, [a]
    precedes [b] exactly when they were built for the same tier and their
    kinds are one of those four pairs; so a tier carries exactly these four
    edges and no edge joins two tiers. Every recorded edge joins two
    constructed stacks, whose ids are pairwise distinct, and there are
    twelve stacks and twelve edges in all. *)
Theorem C5_dependency_edges :
  ∀ process_env : gmap string string,
    (∀ e : string,
       e ∈ ["dev"; "staging"; "prod"] →
       ∃ network security monitoring main : App.Stack,
         Forall (λ u, u ∈ App.children (App.synth process_env) ∧
                      App.environmentName (App.props u) = e)
           [network; security; monitoring; main] ∧
         App.class network = App.FleetMonitorNetworkStack ∧
         App.class security = App.FleetMonitorSecurityStack ∧
         App.class monitoring = App.FleetMonitorMonitoringStack ∧
         App.class main = App.FleetMonitorStack ∧
         App.precedes (App.synth process_env) network security ∧
         App.precedes (App.synth process_env) network main ∧
         App.precedes (App.synth process_env) security main ∧
         App.precedes (App.synth process_env) main monitoring) ∧
    (∀ s : App.Stack,
       s ∈ App.children (App.synth process_env) →
       App.environmentName (App.props s) ∈ ["dev"; "staging"; "prod"]) ∧
    (∀ a b : App.Stack,
       a ∈ App.children (App.synth process_env) →
       b ∈ App.children (App.synth process_env) →
       App.same_tier a b → App.class a = App.class b → a = b) ∧
    length (App.children (App.synth process_env)) = 12%nat ∧
    length (App.dependencies (App.synth process_env)) = 12%nat ∧
    (∀ a b : App.Stack,
       a ∈ App.children (App.synth process_env) →
       b ∈ App.children (App.synth process_env) →
       (App.precedes (App.synth process_env) a b
          ↔ App.same_tier a b ∧ must_precede (App.class a) (App.class b) = true)) ∧
    (∀ x y : string,
       (x, y) ∈ App.dependencies (App.synth process_env) →
       x ∈ App.id <$> App.children (App.synth process_env) ∧
       y ∈ App.id <$> App.children (App.synth process_env)) ∧
    NoDup (App.id <$> App.children (App.synth process_env)).
Proof.
  intros process_env.
  split; [|split; [|split; [|split; [|split]]]].
  - intros e He.
    enumerate He; subst e;
      [ apply (tier_wired process_env "dev" "FleetMonitorNetworkDev"
                 "FleetMonitorSecurityDev" "FleetMonitorMonitoringDev"
                 "FleetMonitorDev")
      | apply (tier_wired process_env "staging" "FleetMonitorNetworkStaging"
                 "FleetMonitorSecurityStaging" "FleetMonitorMonitoringStaging"
                 "FleetMonitorStaging")
      | apply (tier_wired process_env "prod" "FleetMonitorNetworkProd"
                 "FleetMonitorSecurityProd" "FleetMonitorMonitoringProd"
                 "FleetMonitorProd") ];
      rewrite ?synth_units, ?synth_dependencies; compute_done.
  - intros s Hs. apply unit_summary in Hs. rewrite synth_units in Hs.
    destruct s as [c i [e n v g x]].
    cbn [App.props App.environmentName].
    enumerate Hs; known_unit Hs; compute_done.
  - intros a b Ha Hb Htier Hclass.
    apply (distinct_images App.id (App.children (App.synth process_env)));
      [apply synth_ids_distinct | done | done |].
    by apply (tier_and_kind_give_id process_env).
  - reflexivity.
  - rewrite synth_dependencies. reflexivity.
  - assert (App.id <$> App.children (App.synth process_env)
              = (λ u, u.1.1) <$> (App.summary <$> App.children (App.synth process_env)))
      as Hids by (rewrite <- list_fmap_compose; reflexivity).
    rewrite Hids, synth_units. clear Hids.
    split; [|split].
    + intros a b Ha Hb.
      apply unit_summary in Ha, Hb. rewrite synth_units in Ha, Hb.
      unfold App.precedes, App.same_tier. rewrite synth_dependencies.
      destruct a as [ca ia [ea na va ga sa]], b as [cb ib [eb nb vb gb sb]].
      cbn [App.id App.class App.props App.environmentName].
      enumerate Ha; known_unit Ha; enumerate Hb; known_unit Hb; compute_done.
    + intros x y Hxy. rewrite synth_dependencies in Hxy.
      enumerate Hxy; injection Hxy as -> ->; compute_done.
    + compute_done.
Qed.

(** C5 at the development tier, with an empty [process.env]: its four
    stacks are there, wired network, security, main, monitoring. *)
Lemma C5_dependency_edges_witness :
  ∃ network security monitoring main : App.Stack,
    Forall (λ u, u ∈ App.children (App.synth ∅) ∧
                 App.environmentName (App.props u) = "dev")
      [network; security; monitoring; main] ∧
    App.class network = App.FleetMonitorNetworkStack ∧
    App.class security = App.FleetMonitorSecurityStack ∧
    App.class monitoring = App.FleetMonitorMonitoringStack ∧
    App.class main = App.FleetMonitorStack ∧
    App.precedes (App.synth ∅) network security ∧
    App.precedes (App.synth ∅) network main ∧
    App.precedes (App.synth ∅) security main ∧
    App.precedes (App.synth ∅) main monitoring.
Proof.
  apply (proj1 (C5_dependency_edges ∅) "dev"). left.
Defined.

(** C8 at 'prod' and at the misspelling 'production'. *)
Lemma C8_removal_policy_witness :
  removalPolicy (VPCFlowLogGroup "prod") = RETAIN ∧
  removalPolicy (VPCFlowLogGroup "production") = DESTROY.
Proof.
  split.
  - apply (proj1 (C8_removal_policy "prod")). reflexivity.
  - apply (proj1 (proj2 (C8_removal_policy "production"))). discriminate.
Defined.

(** C9 at 'typo-env': its group name is not the dev group's name. *)
Lemma C9_log_group_name_witness :
  logGroupName (VPCFlowLogGroup "typo-env") ≠ logGroupName (VPCFlowLogGroup "dev") ∧
  logGroupName (VPCFlowLogGroup "dev") = logGroupName (VPCFlowLogGroup "dev").
Proof.
  split.
  - intros Heq.
    apply (proj2 (proj1 C9_log_group_name "typo-env")) in Heq. discriminate Heq.
  - apply (proj2 (proj1 C9_log_group_name "dev")). reflexivity.
Defined.

(** * Further properties of the network stack *)

(** ** What the resolvers can answer *)

(** A resolved configuration is one of the three entries of [configs]. *)
Lemma resolved_config (e : string) (c : VpcConfig) :
  getVpcConfig e = Val c →
  c ∈ [ mkVpcConfig 2 "10.0.0.0/16" 1; mkVpcConfig 2 "10.1.0.0/16" 1;
        mkVpcConfig 3 "10.2.0.0/16" 2 ].
Proof.
  rewrite getVpcConfig_cases, configs_lookup.
  repeat case_decide; try case_bool_decide; intros [= <-]; set_solver.
Qed.

(** X1. Whatever string they are given, neither resolver answers with
    [undefined] or any other falsy value. *)
Theorem resolvers_answer_truthy :
  ∀ e : string,
    to_boolean (getVpcConfig e) = true ∧ to_boolean (getLogRetention e) = true.
Proof.
  intros e. rewrite getVpcConfig_cases, getLogRetention_cases.
  rewrite configs_lookup, retentions_lookup.
  repeat case_decide; try case_bool_decide; split; reflexivity.
Qed.

(** X2. The two resolvers always settle on the same tier: for each of the
    three tiers, [getVpcConfig] answers a name with that tier's sizing exactly
    when [getLogRetention] answers it with that tier's retention. *)
Theorem resolvers_agree_on_tier :
  ∀ e k : string,
    k ∈ ["dev"; "staging"; "prod"] →
    (getVpcConfig e = getVpcConfig k ↔ getLogRetention e = getLogRetention k).
Proof.
  intros e k Hk.
  rewrite (getVpcConfig_cases e), (getLogRetention_cases e).
  rewrite configs_lookup, retentions_lookup.
  enumerate Hk; subst k;
    repeat case_decide; try case_bool_decide;
    split; intros Heq; vm_compute in Heq |- *;
    first [reflexivity | discriminate Heq].
Qed.

Lemma resolvers_agree_on_tier_witness :
  getVpcConfig "typo-env" = getVpcConfig "dev"
    ↔ getLogRetention "typo-env" = getLogRetention "dev".
Proof. apply resolvers_agree_on_tier. compute_done. Defined.

(** X3. The sizing handed to [ec2.Vpc] is undefined in all three fields
    exactly for the names [Object.prototype] defines, and defined in all
    three for every other string. *)
Theorem vpc_sizing_defined :
  ∀ e : string,
    (e ∈ Object_prototype
       ↔ FleetMonitorVPC e = mkVpcProps Undefined Undefined Undefined) ∧
    (e ∉ Object_prototype
       ↔ ∃ (z n : Z) (c : string), FleetMonitorVPC e = mkVpcProps (Val z) (Val c) (Val n)).
Proof.
  intros e. unfold FleetMonitorVPC.
  destruct (decide (e ∈ Object_prototype)) as [Hin|Hout].
  - destruct (resolvers_inherited e Hin) as [-> _]. cbn.
    split; split; try done. intros (z & n & c & [=]).
  - rewrite getVpcConfig_cases, bool_decide_eq_false_2 by done.
    destruct (configs !! e) as [cfg|]; cbn.
    + split; split; try done. intros _. by eexists _, _, _.
    + split; split; try done. intros _. by eexists _, _, _.
Qed.

(** ** Sizing of every resolved configuration *)

(** X4. Every configuration the resolver can return asks for at least one
    NAT gateway and for no more NAT gateways than availability zones. *)
Theorem nat_gateways_within_zones :
  ∀ (e : string) (c : VpcConfig),
    getVpcConfig e = Val c →
    (1 ≤ natGateways c ≤ maxAzs c)%Z.
Proof.
  intros e c Hc. apply resolved_config in Hc.
  enumerate Hc; subst c; cbn; lia.
Qed.

Lemma nat_gateways_within_zones_witness :
  (1 ≤ natGateways (mkVpcConfig 3 "10.2.0.0/16" 2)
     ≤ maxAzs (mkVpcConfig 3 "10.2.0.0/16" 2))%Z.
Proof. apply (nat_gateways_within_zones "prod"). vm_compute. reflexivity. Defined.

Lemma shiftr_coarser (a b n m : Z) :
  (0 ≤ n ≤ m)%Z → Z.shiftr a n = Z.shiftr b n → Z.shiftr a m = Z.shiftr b m.
Proof.
  intros Hnm Heq. replace m with (n + (m - n))%Z by lia.
  rewrite <- !Z.shiftr_shiftr by lia. by rewrite Heq.
Qed.

Lemma within_ten (base a : Z) :
  Z.shiftr base 24 = 10 →
  Cidr.contains (Cidr.mkBlock base 16) a = true →
  Cidr.contains (Cidr.mkBlock 167772160 8) a = true.
Proof.
  unfold Cidr.contains, Cidr.prefix, Cidr.base.
  change (32 - 16)%Z with 16%Z. change (32 - 8)%Z with 24%Z.
  change (Z.shiftr 167772160 24) with 10%Z.
  rewrite !Z.eqb_eq. intros Hb Ha.
  apply (shiftr_coarser _ _ 16 24) in Ha; [|lia]. congruence.
Qed.

(** X5. The address block of every configuration the resolver can return
    is a well-formed /16 whose base has no host bit set, and every address
    in it lies in the private range 10.0.0.0/8. *)
Theorem address_block_private_and_aligned :
  ∀ (e : string) (c : VpcConfig),
    getVpcConfig e = Val c →
    ∃ b ten : Cidr.Block,
      Cidr.parse (cidr c) = Some b ∧
      Cidr.parse "10.0.0.0/8" = Some ten ∧
      Cidr.prefix b = 16 ∧
      (Cidr.base b mod Cidr.capacity b = 0)%Z ∧
      ∀ a : Z, Cidr.contains b a = true → Cidr.contains ten a = true.
Proof.
  intros e c Hc. apply resolved_config in Hc.
  exists (Cidr.mkBlock (Cidr.base (default (Cidr.mkBlock 0 0) (Cidr.parse (cidr c)))) 16).
  exists (Cidr.mkBlock 167772160 8).
  enumerate Hc; subst c;
    (split; [vm_compute; reflexivity|]);
    (split; [vm_compute; reflexivity|]);
    (split; [reflexivity|]);
    (split; [vm_compute; reflexivity|]);
    intros a; apply within_ten; reflexivity.
Qed.

Lemma address_block_private_and_aligned_witness :
  ∃ b ten : Cidr.Block,
    Cidr.parse "10.1.0.0/16" = Some b ∧
    Cidr.parse "10.0.0.0/8" = Some ten ∧
    Cidr.prefix b = 16 ∧
    (Cidr.base b mod Cidr.capacity b = 0)%Z ∧
    ∀ a : Z, Cidr.contains b a = true → Cidr.contains ten a = true.
Proof.
  apply (address_block_private_and_aligned "staging" (mkVpcConfig 2 "10.1.0.0/16" 1)).
  vm_compute. reflexivity.
Defined.

(** X6. For every configuration the resolver can return, each configured
    subnet mask is between the block's prefix and /28, and one subnet of each
    kind in each of [maxAzs] availability zones fits into the address block:
    528 addresses per zone against 65536. *)
Theorem subnets_fit_block :
  ∀ (e : string) (c : VpcConfig) (b : Cidr.Block),
    getVpcConfig e = Val c →
    Cidr.parse (cidr c) = Some b →
    Forall (λ s, Cidr.prefix b ≤ Network.cidrMask s ≤ 28)%Z Network.subnetConfiguration ∧
    Network.addresses_per_zone Network.subnetConfiguration = 528 ∧
    (maxAzs c * Network.addresses_per_zone Network.subnetConfiguration
       ≤ Cidr.capacity b)%Z.
Proof.
  intros e c b Hc Hb. apply resolved_config in Hc.
  enumerate Hc; subst c; vm_compute in Hb; injection Hb as <-;
    (split; [repeat constructor; cbn; lia|]);
    (split; [reflexivity|]); vm_compute; discriminate.
Qed.

Lemma subnets_fit_block_witness :
  Forall (λ s, 16 ≤ Network.cidrMask s ≤ 28)%Z Network.subnetConfiguration ∧
  Network.addresses_per_zone Network.subnetConfiguration = 528 ∧
  (3 * Network.addresses_per_zone Network.subnetConfiguration ≤ 65536)%Z.
Proof.
  apply (subnets_fit_block "prod" (mkVpcConfig 3 "10.2.0.0/16" 2)
           (Cidr.mkBlock 167903232 16)).
  - vm_compute. reflexivity.
  - vm_compute. reflexivity.
Defined.

(** ** The flow-log group and the outputs *)

(** X7. The flow-log group is kept on removal exactly when its retention is
    the six months of the production tier: for every environment name the
    two properties are decided alike. *)
Theorem retain_iff_six_months :
  ∀ e : string,
    removalPolicy (VPCFlowLogGroup e) = RETAIN
      ↔ retention (VPCFlowLogGroup e) = Val SIX_MONTHS.
Proof.
  intros e. cbn [VPCFlowLogGroup removalPolicy retention].
  rewrite getLogRetention_cases, retentions_lookup.
  destruct (String.eqb_spec e "prod") as [->|Hne].
  - split; reflexivity.
  - repeat case_decide; try case_bool_decide; split; intros [=]; done.
Qed.

Lemma export_prefixes_differ (e1 e2 : string) :
  "FleetMonitor-VPC-" +:+ e1 ≠ "FleetMonitor-PublicSubnets-" +:+ e2 ∧
  "FleetMonitor-VPC-" +:+ e1 ≠ "FleetMonitor-PrivateSubnets-" +:+ e2 ∧
  "FleetMonitor-PublicSubnets-" +:+ e1 ≠ "FleetMonitor-PrivateSubnets-" +:+ e2.
Proof. repeat split; cbn; intros [=]. Qed.

(** X8. The export names of one network stack are pairwise distinct, and
    two network stacks claim a common export name only when they were built
    for the same environment name, whatever their VPCs are. *)
Theorem export_names_collide_only_within_tier :
  ∀ (v1 v2 : Network.Vpc) (e1 e2 n : string),
    n ∈ Network.exportNames v1 e1 →
    n ∈ Network.exportNames v2 e2 →
    e1 = e2 ∧ NoDup (Network.exportNames v1 e1).
Proof.
  intros v1 v2 e1 e2 n H1 H2.
  destruct (export_prefixes_differ e1 e2) as (Ha & Hb & Hc).
  destruct (export_prefixes_differ e2 e1) as (Ha' & Hb' & Hc').
  destruct (export_prefixes_differ e1 e1) as (Hd & He & Hf).
  split.
  - cbn in H1, H2. enumerate H1; enumerate H2; subst n;
      first [ by apply append_inj_r in H2 | congruence ].
  - cbn. rewrite !NoDup_cons, !not_elem_of_cons.
    repeat split; try done; first [apply not_elem_of_nil | apply NoDup_nil_2].
Qed.

Lemma export_names_collide_only_within_tier_witness :
  "dev" = "dev" ∧
  NoDup (Network.exportNames (Network.mkVpc "vpc-1" "10.0.0.0/16" [] []) "dev").
Proof.
  apply (export_names_collide_only_within_tier
           (Network.mkVpc "vpc-1" "10.0.0.0/16" [] [])
           (Network.mkVpc "vpc-2" "10.0.0.0/16" [] [])
           "dev" "dev" "FleetMonitor-VPC-dev").
  - left.
  - left.
Defined.

Lemma split_comma_free (s : string) :
  Network.comma_free s = true → Cidr.split ","%char s = [s].
Proof.
  induction s as [|c s IH]; simpl; [done|].
  destruct (Ascii.eqb c ","%char); simpl; [done|].
  intros Hs. by rewrite IH.
Qed.

Lemma split_append (s t : string) :
  Network.comma_free s = true →
  Cidr.split ","%char (s +:+ String ","%char t) = s :: Cidr.split ","%char t.
Proof.
  induction s as [|c s IH]; simpl; [done|].
  destruct (Ascii.eqb c ","%char); simpl; [done|].
  intros Hs. by rewrite IH.
Qed.

Lemma split_join (ids : list string) :
  ids ≠ [] →
  Forall (λ s, Network.comma_free s = true) ids →
  Cidr.split ","%char (Network.join "," ids) = ids.
Proof.
  unfold Network.join. intros Hne Hall.
  induction Hall as [|s ids Hs Hall IH]; [done|].
  destruct ids as [|s' ids].
  - cbn. by apply split_comma_free.
  - change (String.concat "," (s :: s' :: ids))
      with (s +:+ String ","%char (String.concat "," (s' :: ids))).
    rewrite split_append by done. by rewrite IH.
Qed.

(** X9. When a VPC has at least one public and one private subnet and no
    subnet id contains a comma, splitting the PublicSubnetIds and
    PrivateSubnetIds output values at the commas gives back the subnet ids,
    in order. *)
Theorem subnet_ids_round_trip :
  ∀ (vpc : Network.Vpc) (e : string),
    Network.publicSubnets vpc ≠ [] →
    Network.privateSubnets vpc ≠ [] →
    Forall (λ s, Network.comma_free (Network.subnetId s) = true)
      (Network.publicSubnets vpc ++ Network.privateSubnets vpc) →
    ∃ pub priv : Network.CfnOutput,
      Network.outputs vpc e !! 2%nat = Some pub ∧
      Network.outputs vpc e !! 3%nat = Some priv ∧
      Network.output_id pub = "PublicSubnetIds" ∧
      Network.output_id priv = "PrivateSubnetIds" ∧
      Cidr.split ","%char (Network.value pub)
        = Network.subnetId <$> Network.publicSubnets vpc ∧
      Cidr.split ","%char (Network.value priv)
        = Network.subnetId <$> Network.privateSubnets vpc.
Proof.
  intros vpc e Hpub Hpriv Hall.
  apply Forall_app in Hall as [Hp Hq].
  eexists _, _. do 4 (split; [reflexivity|]). cbn [Network.value].
  split; apply split_join.
  - by destruct (Network.publicSubnets vpc).
  - by apply Forall_fmap.
  - by destruct (Network.privateSubnets vpc).
  - by apply Forall_fmap.
Qed.

Lemma subnet_ids_round_trip_witness :
  ∃ pub priv : Network.CfnOutput,
    Network.outputs
      (Network.mkVpc "vpc-1" "10.0.0.0/16"
         [Network.mkISubnet "subnet-a"; Network.mkISubnet "subnet-b"]
         [Network.mkISubnet "subnet-c"]) "dev" !! 2%nat = Some pub ∧
    Network.outputs
      (Network.mkVpc "vpc-1" "10.0.0.0/16"
         [Network.mkISubnet "subnet-a"; Network.mkISubnet "subnet-b"]
         [Network.mkISubnet "subnet-c"]) "dev" !! 3%nat = Some priv ∧
    Network.output_id pub = "PublicSubnetIds" ∧
    Network.output_id priv = "PrivateSubnetIds" ∧
    Cidr.split ","%char (Network.value pub) = ["subnet-a"; "subnet-b"] ∧
    Cidr.split ","%char (Network.value priv) = ["subnet-c"].
Proof.
  apply (subnet_ids_round_trip
           (Network.mkVpc "vpc-1" "10.0.0.0/16"
              [Network.mkISubnet "subnet-a"; Network.mkISubnet "subnet-b"]
              [Network.mkISubnet "subnet-c"]) "dev").
  - discriminate.
  - discriminate.
  - repeat constructor.
Defined.

(** X10. A VPC without public subnets gives the empty string as its
    PublicSubnetIds value, which splits into one empty id rather than none;
    and a subnet id that holds a comma is read back as two ids. So both
    conditions of the round trip are needed. *)
Theorem subnet_ids_edge_cases :
  ∀ (vpc : Network.Vpc) (e : string),
    Network.publicSubnets vpc = [] →
    ∃ pub : Network.CfnOutput,
      Network.outputs vpc e !! 2%nat = Some pub ∧
      Network.value pub = "" ∧
      Cidr.split ","%char (Network.value pub) = [""] ∧
      Cidr.split ","%char (Network.join "," ["a,b"]) = ["a"; "b"].
Proof.
  intros vpc e Hnone. eexists. split; [reflexivity|].
  cbn [Network.value]. rewrite Hnone. repeat split.
Qed.

Lemma subnet_ids_edge_cases_witness :
  ∃ pub : Network.CfnOutput,
    Network.outputs (Network.mkVpc "vpc-1" "10.0.0.0/16" [] []) "dev" !! 2%nat
      = Some pub ∧
    Network.value pub = "" ∧
    Cidr.split ","%char (Network.value pub) = [""] ∧
    Cidr.split ","%char (Network.join "," ["a,b"]) = ["a"; "b"].
Proof.
  apply (subnet_ids_edge_cases (Network.mkVpc "vpc-1" "10.0.0.0/16" [] []) "dev").
  reflexivity.
Defined.

(** * Further properties of the application *)

Lemma synth_wiring (process_env : gmap string string) :
  unit_wiring <$> App.children (App.synth process_env) =
    [ ("FleetMonitorNetworkDev", App.FleetMonitorNetworkStack, "dev",
       None, None, "fleet-monitor-network-dev");
      ("FleetMonitorSecurityDev", App.FleetMonitorSecurityStack, "dev",
       Some "FleetMonitorNetworkDev", None, "fleet-monitor-security-dev");
      ("FleetMonitorMonitoringDev", App.FleetMonitorMonitoringStack, "dev",
       None, None, "fleet-monitor-monitoring-dev");
      ("FleetMonitorDev", App.FleetMonitorStack, "dev",
       Some "FleetMonitorNetworkDev", Some "FleetMonitorSecurityDev",
       "fleet-monitor-dev");
      ("FleetMonitorNetworkStaging", App.FleetMonitorNetworkStack, "staging",
       None, None, "fleet-monitor-network-staging");
      ("FleetMonitorSecurityStaging", App.FleetMonitorSecurityStack, "staging",
       Some "FleetMonitorNetworkStaging", None, "fleet-monitor-security-staging");
      ("FleetMonitorMonitoringStaging", App.FleetMonitorMonitoringStack, "staging",
       None, None, "fleet-monitor-monitoring-staging");
      ("FleetMonitorStaging", App.FleetMonitorStack, "staging",
       Some "FleetMonitorNetworkStaging", Some "FleetMonitorSecurityStaging",
       "fleet-monitor-staging");
      ("FleetMonitorNetworkProd", App.FleetMonitorNetworkStack, "prod",
       None, None, "fleet-monitor-network-prod");
      ("FleetMonitorSecurityProd", App.FleetMonitorSecurityStack, "prod",
       Some "FleetMonitorNetworkProd", None, "fleet-monitor-security-prod");
      ("FleetMonitorMonitoringProd", App.FleetMonitorMonitoringStack, "prod",
       None, None, "fleet-monitor-monitoring-prod");
      ("FleetMonitorProd", App.FleetMonitorStack, "prod",
       Some "FleetMonitorNetworkProd", Some "FleetMonitorSecurityProd",
       "fleet-monitor-prod") ].
Proof. vm_compute. reflexivity. Qed.

Lemma synth_ids (process_env : gmap string string) :
  App.id <$> App.children (App.synth process_env) =
    [ "FleetMonitorNetworkDev"; "FleetMonitorSecurityDev";
      "FleetMonitorMonitoringDev"; "FleetMonitorDev";
      "FleetMonitorNetworkStaging"; "FleetMonitorSecurityStaging";
      "FleetMonitorMonitoringStaging"; "FleetMonitorStaging";
      "FleetMonitorNetworkProd"; "FleetMonitorSecurityProd";
      "FleetMonitorMonitoringProd"; "FleetMonitorProd" ].
Proof. vm_compute. reflexivity. Qed.

(** A construct id names one stack class. *)
Lemma id_class (process_env : gmap string string) (a b : App.Stack) :
  a ∈ App.children (App.synth process_env) →
  b ∈ App.children (App.synth process_env) →
  App.id a = App.id b → App.class a = App.class b.
Proof.
  intros Ha Hb.
  known_wiring (synth_wiring process_env) Ha a;
    known_wiring (synth_wiring process_env) Hb b; compute_done.
Qed.

(** A declared dependency points to a kind of lower rank. *)
Lemma dependency_lowers_rank (process_env : gmap string string) (a b : App.Stack) :
  a ∈ App.children (App.synth process_env) →
  b ∈ App.children (App.synth process_env) →
  depends_on (App.synth process_env) (App.id a) (App.id b) →
  (rank (App.class b) < rank (App.class a))%nat.
Proof.
  intros Ha Hb. unfold depends_on. rewrite synth_dependencies.
  known_wiring (synth_wiring process_env) Ha a;
    known_wiring (synth_wiring process_env) Hb b; compute_done.
Qed.

Lemma dependency_endpoints (process_env : gmap string string) (x y : string) :
  depends_on (App.synth process_env) x y →
  ∃ a b : App.Stack,
    a ∈ App.children (App.synth process_env) ∧
    b ∈ App.children (App.synth process_env) ∧
    App.id a = x ∧ App.id b = y.
Proof.
  unfold depends_on. rewrite synth_dependencies. intros Hxy.
  assert (x ∈ App.id <$> App.children (App.synth process_env) ∧
          y ∈ App.id <$> App.children (App.synth process_env)) as [Hx Hy].
  { rewrite synth_ids. enumerate Hxy; injection Hxy as -> ->; compute_done. }
  apply list_elem_of_fmap_1 in Hx as (a & -> & Ha).
  apply list_elem_of_fmap_1 in Hy as (b & -> & Hb).
  by exists a, b.
Qed.

Lemma chain_lowers_rank (process_env : gmap string string) (x y : string) :
  tc (depends_on (App.synth process_env)) x y →
  ∃ a b : App.Stack,
    a ∈ App.children (App.synth process_env) ∧
    b ∈ App.children (App.synth process_env) ∧
    App.id a = x ∧ App.id b = y ∧
    (rank (App.class b) < rank (App.class a))%nat.
Proof.
  induction 1 as [x y Hxy | x y z Hxy _ (a' & b' & Ha' & Hb' & Hy & Hz & Hlt)].
  - destruct (dependency_endpoints _ _ _ Hxy) as (a & b & Ha & Hb & <- & <-).
    exists a, b. eauto 10 using dependency_lowers_rank.
  - destruct (dependency_endpoints _ _ _ Hxy) as (a & b & Ha & Hb & <- & Hy').
    assert (App.class b = App.class a') as Hcls
      by (apply (id_class process_env); congruence).
    assert (rank (App.class b) < rank (App.class a))%nat
      by (apply (dependency_lowers_rank process_env); congruence).
    exists a, b'. repeat split; try done. rewrite Hcls in *. lia.
Qed.

(** X11. The declared dependencies contain no cycle. Following one or more
    of them from a stack always arrives at a stack of a kind that comes
    earlier in the order network, security, main, monitoring; so no stack
    depends on itself, directly or through others. *)
Theorem dependencies_acyclic :
  ∀ process_env : gmap string string,
    (∀ a b : App.Stack,
       a ∈ App.children (App.synth process_env) →
       b ∈ App.children (App.synth process_env) →
       tc (depends_on (App.synth process_env)) (App.id a) (App.id b) →
       (rank (App.class b) < rank (App.class a))%nat) ∧
    (∀ x : string, ¬ tc (depends_on (App.synth process_env)) x x).
Proof.
  intros process_env. split.
  - intros a b Ha Hb Htc.
    destruct (chain_lowers_rank _ _ _ Htc) as (a' & b' & Ha' & Hb' & Hia & Hib & Hlt).
    rewrite <- (id_class process_env a' a), <- (id_class process_env b' b); done.
  - intros x Htc.
    destruct (chain_lowers_rank _ _ _ Htc) as (a & b & Ha & Hb & Hia & Hib & Hlt).
    assert (App.class a = App.class b) as Hcls
      by (apply (id_class process_env); congruence).
    rewrite Hcls in Hlt. lia.
Qed.

Lemma dependencies_acyclic_witness :
  (¬ tc (depends_on (App.synth ∅)) "FleetMonitorDev" "FleetMonitorDev") ∧
  depends_on (App.synth ∅) "FleetMonitorDev" "FleetMonitorNetworkDev".
Proof.
  split.
  - apply (proj2 (dependencies_acyclic ∅)).
  - unfold depends_on. rewrite synth_dependencies. compute_done.
Defined.

(** X12. Every handle a stack is built with comes from a stack of the same
    tier and of the class that produces it (the VPC from the network stack,
    the security group from the security stack), and the consumer was
    declared to depend on that producer. *)
Theorem handles_come_with_dependency :
  ∀ (process_env : gmap string string) (s : App.Stack) (n : string),
    s ∈ App.children (App.synth process_env) →
    App.vpc (App.props s) = Some n ∨ App.securityGroup (App.props s) = Some n →
    depends_on (App.synth process_env) (App.id s) n ∧
    n ∈ App.id <$> App.children (App.synth process_env) ∧
    ∀ p : App.Stack,
      p ∈ App.children (App.synth process_env) →
      App.id p = n →
      App.same_tier s p ∧
      (App.vpc (App.props s) = Some n → produces_vpc p) ∧
      (App.securityGroup (App.props s) = Some n → produces_securityGroup p).
Proof.
  intros process_env s n Hs Hn.
  unfold depends_on, App.same_tier, produces_vpc, produces_securityGroup.
  rewrite synth_dependencies, synth_ids.
  known_wiring (synth_wiring process_env) Hs s;
    destruct Hn as [[=]|[=]]; subst n;
    (split; [compute_done|]); (split; [compute_done|]);
    intros p Hp; known_wiring (synth_wiring process_env) Hp p; compute_done.
Qed.

Lemma handles_come_with_dependency_witness :
  depends_on (App.synth ∅) "FleetMonitorSecurityDev" "FleetMonitorNetworkDev" ∧
  "FleetMonitorNetworkDev" ∈ App.id <$> App.children (App.synth ∅).
Proof.
  pose (s := App.mkStack App.FleetMonitorSecurityStack "FleetMonitorSecurityDev"
               (App.mkStackProps (App.dev (App.environments ∅)) "dev"
                  (Some "FleetMonitorNetworkDev") None "fleet-monitor-security-dev")).
  destruct (handles_come_with_dependency ∅ s "FleetMonitorNetworkDev")
    as (Hdep & Hin & _).
  - right. left.
  - left. reflexivity.
  - split; [exact Hdep | exact Hin].
Defined.

Lemma synth_env (process_env : gmap string string) :
  Forall (λ s, App.env (App.props s) = App.dev (App.environments process_env))
    (App.children (App.synth process_env)).
Proof. repeat constructor. Qed.

(** X13. All twelve stacks, whatever their tier, are built with the same
    account and region, and that region is never undefined or empty. *)
Theorem stacks_share_environment :
  ∀ (process_env : gmap string string) (a b : App.Stack),
    a ∈ App.children (App.synth process_env) →
    b ∈ App.children (App.synth process_env) →
    App.env (App.props a) = App.env (App.props b) ∧
    ∃ r : string, App.region (App.env (App.props a)) = Val r ∧ r ≠ "".
Proof.
  intros process_env a b Ha Hb.
  pose proof (synth_env process_env) as Henv.
  rewrite Forall_forall in Henv.
  rewrite (Henv a Ha), (Henv b Hb). split; [reflexivity|].
  rewrite region_cases.
  destruct (process_env !! "CDK_DEFAULT_REGION") as [r|]; [|by eexists].
  destruct (String.eqb_spec r ""); by eexists.
Qed.

Lemma stacks_share_environment_witness :
  ∃ a b : App.Stack,
    App.environmentName (App.props a) = "dev" ∧
    App.environmentName (App.props b) = "prod" ∧
    App.env (App.props a) = App.env (App.props b) ∧
    ∃ r : string, App.region (App.env (App.props a)) = Val r ∧ r ≠ "".
Proof.
  pose (e := App.environments {["CDK_DEFAULT_REGION" := "eu-west-1"]}).
  exists (App.mkStack App.FleetMonitorNetworkStack "FleetMonitorNetworkDev"
            (App.mkStackProps (App.dev e) "dev" None None "fleet-monitor-network-dev")).
  exists (App.mkStack App.FleetMonitorNetworkStack "FleetMonitorNetworkProd"
            (App.mkStackProps (App.prod e) "prod" None None "fleet-monitor-network-prod")).
  split; [reflexivity|]. split; [reflexivity|].
  apply (stacks_share_environment {["CDK_DEFAULT_REGION" := "eu-west-1"]}).
  - left.
  - do 8 right. left.
Defined.

(** X14. A stack's name is 'fleet-monitor-', then the unit kind
    ('network-', 'security-', 'monitoring-', or nothing for the main stack),
    then the environment name it was built with; the twelve stack names are
    pairwise distinct. *)
Theorem stack_names_distinct :
  ∀ process_env : gmap string string,
    NoDup ((λ s, App.stackName (App.props s)) <$> App.children (App.synth process_env)) ∧
    Forall (λ s, App.stackName (App.props s)
                   = "fleet-monitor-" +:+ kind_infix (App.class s)
                       +:+ App.environmentName (App.props s))
      (App.children (App.synth process_env)).
Proof.
  intros process_env. split.
  - assert ((λ s, App.stackName (App.props s)) <$> App.children (App.synth process_env)
              = (λ w, w.2) <$> (unit_wiring <$> App.children (App.synth process_env)))
      as -> by (rewrite <- list_fmap_compose; reflexivity).
    rewrite synth_wiring. compute_done.
  - repeat constructor.
Qed.

(** ** Tags *)

(** The tags of a stack, by the environment name it was built with. *)
Lemma tags_of_unit (process_env : gmap string string) (s : App.Stack)
    (t : gmap string string) :
  s ∈ App.children (App.synth process_env) →
  (App.id s, t) ∈ Tags.stackTags →
  (App.environmentName (App.props s) = "dev" ∧
   t = Tags.with_tag "CostCenter" "Development"
         (Tags.with_tag "Environment" "Development" Tags.commonTags)) ∨
  (App.environmentName (App.props s) = "staging" ∧
   t = Tags.with_tag "CostCenter" "Testing"
         (Tags.with_tag "Environment" "Staging" Tags.commonTags)) ∨
  (App.environmentName (App.props s) = "prod" ∧
   t = Tags.with_tag "Backup" "Required"
         (Tags.with_tag "CostCenter" "Production"
            (Tags.with_tag "Environment" "Production" Tags.commonTags))).
Proof.
  intros Hs Ht. unfold Tags.stackTags in Ht.
  known_wiring (synth_wiring process_env) Hs s;
    enumerate Ht; simplify_eq; auto.
Qed.

Lemma tags_exist (process_env : gmap string string) (s : App.Stack) :
  s ∈ App.children (App.synth process_env) →
  ∃ t : gmap string string, (App.id s, t) ∈ Tags.stackTags.
Proof.
  intros Hs.
  assert (App.id s ∈ Tags.stackTags.*1) as Hin.
  { apply (list_elem_of_fmap_2 App.id) in Hs. rewrite synth_ids in Hs.
    enumerate Hs; rewrite Hs; compute_done. }
  apply list_elem_of_fmap_1 in Hin as ([i t] & Hi & Hin). cbn in Hi. subst i.
  by exists t.
Qed.

Lemma common_tags_kept (k1 v1 k2 v2 : string) :
  Tags.commonTags !! k1 = None → Tags.commonTags !! k2 = None →
  Tags.commonTags ⊆ Tags.with_tag k2 v2 (Tags.with_tag k1 v1 Tags.commonTags).
Proof.
  intros H1 H2. unfold Tags.with_tag.
  apply insert_subseteq_r; [done|]. by apply insert_subseteq.
Qed.

(** X15. Every stack of the application has a tag set. It holds the five
    common tags with their common values, an Environment tag and a
    CostCenter tag; and it holds the tag Backup, with the value 'Required',
    exactly when the stack was built for 'prod'. *)
Theorem stack_tags_complete :
  ∀ (process_env : gmap string string) (s : App.Stack),
    s ∈ App.children (App.synth process_env) →
    ∃ t : gmap string string,
      (App.id s, t) ∈ Tags.stackTags ∧
      Tags.commonTags ⊆ t ∧
      size Tags.commonTags = 5%nat ∧
      is_Some (t !! "Environment") ∧
      is_Some (t !! "CostCenter") ∧
      (t !! "Backup" = Some "Required" ↔ App.environmentName (App.props s) = "prod") ∧
      (t !! "Backup" = None ↔ App.environmentName (App.props s) ≠ "prod").
Proof.
  intros process_env s Hs.
  destruct (tags_exist process_env s Hs) as [t Ht].
  exists t. split; [done|].
  destruct (tags_of_unit process_env s t Hs Ht)
    as [[-> ->]|[[-> ->]|[-> ->]]].
  - split; [by apply common_tags_kept|]. repeat split; try done; compute_done.
  - split; [by apply common_tags_kept|]. repeat split; try done; compute_done.
  - split.
    { unfold Tags.with_tag at 1. apply insert_subseteq_r; [done|].
      by apply common_tags_kept. }
    repeat split; try done; compute_done.
Qed.

Lemma stack_tags_complete_witness :
  ∃ t : gmap string string,
    ("FleetMonitorNetworkProd", t) ∈ Tags.stackTags ∧
    Tags.commonTags ⊆ t ∧
    size Tags.commonTags = 5%nat ∧
    is_Some (t !! "Environment") ∧
    is_Some (t !! "CostCenter") ∧
    (t !! "Backup" = Some "Required" ↔ "prod" = "prod") ∧
    (t !! "Backup" = None ↔ "prod" ≠ "prod").
Proof.
  apply (stack_tags_complete ∅
           (App.mkStack App.FleetMonitorNetworkStack "FleetMonitorNetworkProd"
              (App.mkStackProps (App.prod (App.environments ∅)) "prod" None None
                 "fleet-monitor-network-prod"))).
  do 8 right. left.
Defined.

(** X16. The [tags] property that the application passes to a stack
    depends on the tier and on nothing else: two stacks are passed the same
    one exactly when they were built for the same environment name. No
    [tags] property holds a StackType or a Name tag, so what a network stack
    adds of its own (StackType 'Network', and the VPC's Name) replaces
    nothing it was passed, and sets the tags a network stack carries apart
    from every [tags] property. *)
Theorem tags_property_by_tier :
  ∀ (process_env : gmap string string) (a b : App.Stack)
    (ta tb : gmap string string),
    a ∈ App.children (App.synth process_env) →
    b ∈ App.children (App.synth process_env) →
    (App.id a, ta) ∈ Tags.stackTags →
    (App.id b, tb) ∈ Tags.stackTags →
    (ta = tb ↔ App.same_tier a b) ∧
    ta !! "StackType" = None ∧
    ta !! "Name" = None ∧
    ta ⊆ networkStackTags ta ∧
    (∀ e : string, networkStackTags ta ⊆ vpcTags e ta) ∧
    networkStackTags ta !! "StackType" = Some "Network" ∧
    networkStackTags ta ≠ tb.
Proof.
  intros process_env a b ta tb Ha Hb Hta Htb. unfold App.same_tier.
  assert (∀ (s : App.Stack) (t : gmap string string),
            s ∈ App.children (App.synth process_env) →
            (App.id s, t) ∈ Tags.stackTags →
            t !! "StackType" = None ∧ t !! "Name" = None) as Hfree.
  { intros s t Hs Ht.
    destruct (tags_of_unit process_env s t Hs Ht)
      as [[_ ->]|[[_ ->]|[_ ->]]]; split; reflexivity. }
  destruct (Hfree a ta Ha Hta) as [Hst Hname].
  destruct (Hfree b tb Hb Htb) as [Hstb _].
  split; [|split; [done|split; [done|split; [|split; [|split]]]]].
  - destruct (tags_of_unit process_env a ta Ha Hta)
      as [[-> ->]|[[-> ->]|[-> ->]]];
      destruct (tags_of_unit process_env b tb Hb Htb)
        as [[-> ->]|[[-> ->]|[-> ->]]];
      try (split; reflexivity);
      split; try discriminate;
      intros Heq;
      apply (f_equal (λ m : gmap string string, m !! "Environment")) in Heq;
      vm_compute in Heq; discriminate Heq.
  - unfold networkStackTags, Tags.with_tag. by apply insert_subseteq.
  - intros e. unfold vpcTags, networkStackTags, Tags.with_tag.
    apply insert_subseteq. by rewrite lookup_insert_ne.
  - unfold networkStackTags, Tags.with_tag. apply lookup_insert_eq.
  - intros Heq. apply (f_equal (λ m : gmap string string, m !! "StackType")) in Heq.
    unfold networkStackTags, Tags.with_tag in Heq.
    rewrite lookup_insert_eq, Hstb in Heq. discriminate Heq.
Qed.

Lemma tags_property_by_tier_witness :
  ∃ a b : App.Stack,
    App.id a = "FleetMonitorNetworkDev" ∧
    App.id b = "FleetMonitorDev" ∧
    ∃ ta tb : gmap string string,
      (App.id a, ta) ∈ Tags.stackTags ∧
      (App.id b, tb) ∈ Tags.stackTags ∧
      (ta = tb ↔ App.same_tier a b) ∧
      ta !! "StackType" = None ∧
      ta !! "Name" = None ∧
      ta ⊆ networkStackTags ta ∧
      (∀ e : string, networkStackTags ta ⊆ vpcTags e ta) ∧
      networkStackTags ta !! "StackType" = Some "Network" ∧
      networkStackTags ta ≠ tb.
Proof.
  pose (e := App.dev (App.environments ∅)).
  exists (App.mkStack App.FleetMonitorNetworkStack "FleetMonitorNetworkDev"
            (App.mkStackProps e "dev" None None "fleet-monitor-network-dev")).
  exists (App.mkStack App.FleetMonitorStack "FleetMonitorDev"
            (App.mkStackProps e "dev" (Some "FleetMonitorNetworkDev")
               (Some "FleetMonitorSecurityDev") "fleet-monitor-dev")).
  split; [reflexivity|]. split; [reflexivity|].
  eexists _, _.
  split; [left|]. split; [do 3 right; left|].
  apply (tags_property_by_tier ∅).
  - left.
  - do 3 right. left.
  - left.
  - do 3 right. left.
Defined.

(** ** Names outside the three tiers, and variables outside the three read *)

(** X17. A network stack built for a name that is neither a tier nor
    defined by [Object.prototype] is a second dev network: the same sizing
    and address block as 'dev', the dev retention and the destroy policy,
    under a log-group name that differs from the dev one. *)
Theorem unlisted_name_duplicates_dev :
  ∀ e : string,
    e ∉ ["dev"; "staging"; "prod"] →
    e ∉ Object_prototype →
    FleetMonitorVPC e = FleetMonitorVPC "dev" ∧
    retention (VPCFlowLogGroup e) = retention (VPCFlowLogGroup "dev") ∧
    removalPolicy (VPCFlowLogGroup e) = DESTROY ∧
    logGroupName (VPCFlowLogGroup e) ≠ logGroupName (VPCFlowLogGroup "dev").
Proof.
  intros e Htier Hproto.
  destruct (resolvers_fall_back e Hproto Htier) as [Hv Hl].
  rewrite !not_elem_of_cons in Htier. destruct Htier as (Hdev & _ & Hprod & _).
  unfold FleetMonitorVPC. rewrite Hv. split; [reflexivity|].
  cbn [VPCFlowLogGroup retention removalPolicy logGroupName].
  split; [exact Hl|]. split.
  - by destruct (String.eqb_spec e "prod").
  - intros Heq. by apply append_inj_r in Heq.
Qed.

Lemma unlisted_name_duplicates_dev_witness :
  FleetMonitorVPC "production" = FleetMonitorVPC "dev" ∧
  retention (VPCFlowLogGroup "production") = retention (VPCFlowLogGroup "dev") ∧
  removalPolicy (VPCFlowLogGroup "production") = DESTROY ∧
  logGroupName (VPCFlowLogGroup "production") ≠ logGroupName (VPCFlowLogGroup "dev").
Proof. apply unlisted_name_duplicates_dev; compute_done. Defined.

(** X18. The account of the environments is missing (undefined or empty)
    exactly when CDK_DEFAULT_ACCOUNT and AWS_ACCOUNT_ID are both unset or
    empty; and a non-empty CDK_DEFAULT_ACCOUNT is the account whatever
    AWS_ACCOUNT_ID holds. *)
Theorem account_missing_iff :
  ∀ process_env : gmap string string,
    (to_boolean (App.account (App.dev (App.environments process_env))) = false
       ↔ (process_env !! "CDK_DEFAULT_ACCOUNT" = None ∨
          process_env !! "CDK_DEFAULT_ACCOUNT" = Some "") ∧
         (process_env !! "AWS_ACCOUNT_ID" = None ∨
          process_env !! "AWS_ACCOUNT_ID" = Some "")) ∧
    (∀ s : string,
       process_env !! "CDK_DEFAULT_ACCOUNT" = Some s → s ≠ "" →
       App.account (App.dev (App.environments process_env)) = Val s).
Proof.
  intros process_env. rewrite account_cases.
  assert (∀ s : string, to_boolean (Val s) = false ↔ s = "") as Hfalsy.
  { intros s. unfold to_boolean, truthy, string_truthy.
    destruct (String.eqb_spec s ""); cbn; split; congruence. }
  destruct (process_env !! "CDK_DEFAULT_ACCOUNT") as [s|],
    (process_env !! "AWS_ACCOUNT_ID") as [s'|];
    try destruct (String.eqb_spec s "") as [->|Hs];
    rewrite ?Hfalsy; cbn [to_boolean];
    (split; [|intros ? [= <-] ?; congruence]);
    split; try (intros []; congruence); intuition congruence.
Qed.

Lemma account_missing_iff_witness :
  App.account (App.dev (App.environments
     (<["CDK_DEFAULT_ACCOUNT" := "111111111111"]> {["AWS_ACCOUNT_ID" := "222222222222"]})))
    = Val "111111111111".
Proof.
  apply (proj2 (account_missing_iff _)); [reflexivity | discriminate].
Defined.

Lemma environments_frame (process_env : gmap string string) (k v : string) :
  k ∉ ["CDK_DEFAULT_ACCOUNT"; "AWS_ACCOUNT_ID"; "CDK_DEFAULT_REGION"] →
  App.environments (<[k := v]> process_env) = App.environments process_env.
Proof.
  rewrite !not_elem_of_cons. intros (H1 & H2 & H3 & _).
  unfold App.environments, get. by rewrite !lookup_insert_ne.
Qed.

(** X19. The application reads [process.env] through the three variables
    CDK_DEFAULT_ACCOUNT, AWS_ACCOUNT_ID and CDK_DEFAULT_REGION only: setting
    any other variable, AWS_REGION for one, leaves the environments and the
    whole composed tree as they were. *)
Theorem other_variables_ignored :
  ∀ (process_env : gmap string string) (k v : string),
    k ∉ ["CDK_DEFAULT_ACCOUNT"; "AWS_ACCOUNT_ID"; "CDK_DEFAULT_REGION"] →
    App.environments (<[k := v]> process_env) = App.environments process_env ∧
    App.synth (<[k := v]> process_env) = App.synth process_env.
Proof.
  intros process_env k v Hk.
  pose proof (environments_frame process_env k v Hk) as Henv.
  split; [exact Henv|].
  unfold App.synth, App.main. by rewrite Henv.
Qed.

Lemma other_variables_ignored_witness :
  App.environments (<["AWS_REGION" := "eu-west-1"]> ∅) = App.environments ∅ ∧
  App.synth (<["AWS_REGION" := "eu-west-1"]> ∅) = App.synth ∅.
Proof. apply other_variables_ignored. compute_done. Defined.
